(** * image_info.py: the image inspection script

    A shallow embedding of [Template/Assets/image_info.py] and the
    properties of its console report.

    The script opens one image with Pillow, reads [img.mode] and
    [img.info.get("bits")], prints a three-line report, and turns every
    [Exception] into one printed line.  Pillow is an external collaborator: it
    is modelled as a decoder that answers the three queries the script makes,
    each of which may raise. *)

From Stdlib Require Import ZArith String Ascii List DecimalString.
From stdpp Require Import base option list strings gmap.

Open Scope string_scope.
Open Scope list_scope.
Open Scope stdpp_scope.

(** ** Python values *)

Module Py.

Set Warnings "-register-all".

(** Exceptions.  The script's two [except] clauses only tell
    [FileNotFoundError] from the other instances of [Exception]; a
    [BaseException] outside [Exception] ([KeyboardInterrupt], [SystemExit])
    matches neither. *)
Inductive exc_class : Type :=
| FileNotFoundError
| Exception
| BaseException.

Record pyexc : Type := mk_exc { exc_cls : exc_class; exc_str : string }.

(** [isinstance(e, c)] along FileNotFoundError <: Exception <: BaseException. *)
Definition isinstance_exc (e : pyexc) (c : exc_class) : bool :=
  match exc_cls e, c with
  | _, BaseException => true
  | BaseException, _ => false
  | _, Exception => true
  | FileNotFoundError, FileNotFoundError => true
  | Exception, FileNotFoundError => false
  end.

Inductive result (A : Type) : Type :=
| Ok (a : A)
| Raise (e : pyexc).
Arguments Ok {A} a.
Arguments Raise {A} e.

(** Apply a function that may raise to the items of a list from left to
    right; the first exception ends the traversal. *)
Section MapM.

Context {A B : Type} (f : A -> result B).

Fixpoint mapM (l : list A) : result (list B) :=
  match l with
  | [] => Ok []
  | x :: rest =>
      match f x with
      | Raise e => Raise e
      | Ok y =>
          match mapM rest with
          | Raise e => Raise e
          | Ok ys => Ok (y :: ys)
          end
      end
  end.

End MapM.

(** The objects that may sit under the ["bits"] key.  [PyObj] stands for an
    object that is not [None], a [bool], an [int] or a [tuple] and whose
    [str()] and [repr()] succeed (a [str], a [float], ...): the script only
    ever observes its truth value and its [str()] text, and [repr()] when it
    is printed as a tuple item. *)
Inductive pyval : Type :=
| PyNone
| PyBool (b : bool)
| PyInt (n : Z)
| PyTuple (items : list pyval)
| PyObj (truth : bool) (text : string) (repr : string).

(** CPython's default bound on the decimal digits of an [int] that [str()]
    and [repr()] accept ([sys.int_info.default_max_str_digits]). *)
Definition max_str_digits : nat := 4300.

(** The number of decimal digits of [n], the sign left out. *)
Definition int_digits (n : Z) : nat :=
  Decimal.nb_digits (N.to_uint (Z.abs_N n)).

(** The [ValueError] of an over-long conversion. *)
Definition str_limit_error : pyexc :=
  mk_exc Exception
    "Exceeds the limit (4300 digits) for integer string conversion; use sys.set_int_max_str_digits() to increase the limit".

(** [str(n)] for an [int]: decimal digits, a leading minus sign when
    negative; a [ValueError] when [n] has more than [max_str_digits]
    digits. *)
Definition str_int (n : Z) : result string :=
  if Nat.ltb max_str_digits (int_digits n) then Raise str_limit_error
  else Ok (NilZero.string_of_int (Z.to_int n)).

(** [repr(v)]. A tuple prints its items' [repr] separated by [", "], and a
    one-item tuple keeps the trailing comma; an item whose [repr] raises
    makes the tuple's raise. *)
Fixpoint py_repr (v : pyval) : result string :=
  match v with
  | PyNone => Ok "None"
  | PyBool b => Ok (if b then "True" else "False")
  | PyInt n => str_int n
  | PyTuple items =>
      match mapM py_repr items with
      | Raise e => Raise e
      | Ok [x] => Ok ("(" +:+ x +:+ ",)")
      | Ok texts => Ok ("(" +:+ String.concat ", " texts +:+ ")")
      end
  | PyObj _ _ r => Ok r
  end.

(** [str(v)], which is also what an f-string field [{v}] inserts. *)
Definition py_str (v : pyval) : result string :=
  match v with
  | PyObj _ t _ => Ok t
  | _ => py_repr v
  end.

(** [sep.join(map(str, items))]. *)
Definition join_str (sep : string) (items : list pyval) : result string :=
  match mapM py_str items with
  | Raise e => Raise e
  | Ok texts => Ok (String.concat sep texts)
  end.

(** Truth value testing, as [if v:] does it. *)
Definition truthy (v : pyval) : bool :=
  match v with
  | PyNone => false
  | PyBool b => b
  | PyInt n => negb (n =? 0)%Z
  | PyTuple items => negb (Nat.eqb (length items) 0)
  | PyObj t _ _ => t
  end.

(** [len(s)] of a [str].  Mode names are ASCII, so characters and bytes
    coincide. *)
Definition len (s : string) : nat := String.length s.

(** [d.get(key)]: the value, or [None] when the key is missing. *)
Definition dict_get (d : gmap string pyval) (key : string) : pyval :=
  default PyNone (d !! key).

End Py.
Export Py.

(** ** Programs that print and may raise *)

Module Prog.

(** Standard output is the list of lines printed so far, one per [print]
    call and in order.  A program maps it to the extended output and either a
    value or the exception that ended it. *)
Definition stdout : Type := list string.
Definition Prog (A : Type) : Type := stdout -> stdout * result A.

Definition ret {A} (a : A) : Prog A := fun out => (out, Ok a).

Definition bind {A B} (m : Prog A) (k : A -> Prog B) : Prog B :=
  fun out =>
    match m out with
    | (out', Ok a) => k a out'
    | (out', Raise e) => (out', Raise e)
    end.

(** An expression that evaluates to a value or raises. *)
Definition eval {A} (r : result A) : Prog A := fun out => (out, r).

Definition print (line : string) : Prog unit :=
  fun out => (out ++ [line], Ok tt).

(** [try: body  except c1: h1  except c2: h2 ...]: the first clause whose
    class the exception is an instance of handles it; with no such clause the
    exception propagates.  Lines printed before the raise stay printed. *)
Fixpoint select_clause (e : pyexc)
    (clauses : list (exc_class * (pyexc -> Prog unit))) : option (Prog unit) :=
  match clauses with
  | [] => None
  | (c, h) :: rest =>
      if isinstance_exc e c then Some (h e) else select_clause e rest
  end.

Definition try_except (body : Prog unit)
    (clauses : list (exc_class * (pyexc -> Prog unit))) : Prog unit :=
  fun out =>
    match body out with
    | (out', Ok a) => (out', Ok a)
    | (out', Raise e) =>
        match select_clause e clauses with
        | Some h => h out'
        | None => (out', Raise e)
        end
    end.

End Prog.
Export Prog.

Notation "x <- m ;; k" := (bind m (fun x => k))
  (at level 100, m at next level, right associativity).
Notation "m ;;; k" := (bind m (fun _ => k))
  (at level 100, right associativity).

(** ** The decoder *)

(** What [Image.open(path)] hands back: an object whose [mode] attribute is a
    [str] and whose [info] attribute is a [dict]; either query may raise. *)
Record Image : Type := mk_image {
  img_mode : result string;
  img_info : result (gmap string pyval)
}.

(** The file system together with Pillow: the outcome of [Image.open] at
    every path. *)
Record Decoder : Type := mk_decoder {
  Image_open : string -> result Image
}.

(** ** The script *)

(** Lines 15-32: the bit-depth line.  The conversions of lines 19 and 22
    run here, after the first two lines are printed, and may raise. *)
Definition report_depth (mode : string) (bit_depth_info : pyval) : Prog unit :=
  if truthy bit_depth_info then
    match bit_depth_info with
    | PyTuple items =>
        if Nat.eqb (length items) (len mode) then
          formatted_depth <- eval (join_str "" items) ;;
          print ("Image Bit Depth: RGBA" +:+ formatted_depth)
        else
          text <- eval (py_str bit_depth_info) ;;
          print ("Image Bit Depth: " +:+ text
                 +:+ " bits per channel (or an unknown format)")
    | _ =>
        text <- eval (py_str bit_depth_info) ;;
        print ("Image Bit Depth: " +:+ text
               +:+ " bits per channel (or an unknown format)")
    end
  else
    if String.eqb mode "RGBA" then
      print "Image Bit Depth: RGBA8888 (Standard)"
    else if String.eqb mode "RGB" then
      print "Image Bit Depth: RGB888 (Standard)"
    else if String.eqb mode "L" then
      print "Image Bit Depth: 8-bit Grayscale (L8)"
    else
      print "Image Bit Depth: Format details are not explicitly available.".

(** Lines 6-32: the [with] block.  Leaving it closes the image, which prints
    nothing and lets an exception of the body through. *)
Definition with_block (w : Decoder) (image_path : string) : Prog unit :=
  img <- eval (Image_open w image_path) ;;
  mode <- eval (img_mode img) ;;
  info <- eval (img_info img) ;;
  let bit_depth_info := dict_get info "bits" in
  print ("File: " +:+ image_path) ;;;
  print ("Pillow Mode: " +:+ mode) ;;;
  report_depth mode bit_depth_info.

(** Lines 3-37.  The script binds [image_path] on line 4; it is a parameter
    here and [main] supplies the script's literal. *)
Definition inspect (image_path : string) (w : Decoder) : Prog unit :=
  try_except (with_block w image_path)
    [ (FileNotFoundError, fun _ =>
         print ("Error: The file '" +:+ image_path +:+ "' was not found."));
      (Exception, fun e =>
         print ("An error occurred: " +:+ exc_str e)) ].

Definition main (w : Decoder) : Prog unit :=
  inspect "title_background.png" w.

(** ** Running a program *)

(** The lines on standard output after a run from an empty console. *)
Definition output (p : Prog unit) : list string := fst (p []).

(** Whether the run ended without an uncaught exception (exit status 0). *)
Definition exits_normally (p : Prog unit) : bool :=
  match snd (p []) with
  | Ok _ => true
  | Raise _ => false
  end.

(** The bytes on standard output: every line followed by a line feed. *)
Definition newline : string := String (ascii_of_nat 10) EmptyString.

Definition stdout_text (lines : list string) : string :=
  String.concat "" (map (fun l => l +:+ newline) lines).

(** The first exception the decoder raises for a path, if any: at
    [Image.open], at [img.mode] or at [img.info]. *)
Definition failure (w : Decoder) (image_path : string) : option pyexc :=
  match Image_open w image_path with
  | Raise e => Some e
  | Ok img =>
      match img_mode img with
      | Raise e => Some e
      | Ok _ =>
          match img_info img with
          | Raise e => Some e
          | Ok _ => None
          end
      end
  end.

(** The third printed line. *)
Definition third_line (p : Prog unit) : option string := output p !! 2%nat.

(** The decoder only raises instances of [Exception] for this path, which is
    what a missing, unreadable, corrupt or unsupported file gives. *)
Definition raises_only_Exception (w : Decoder) (image_path : string) : bool :=
  match failure w image_path with
  | Some e => isinstance_exc e Exception
  | None => true
  end.


(** No [int] inside the value has more digits than [str()] accepts. *)
Fixpoint within_str_limit (v : pyval) : bool :=
  match v with
  | PyInt n => negb (Nat.ltb max_str_digits (int_digits n))
  | PyTuple items => forallb within_str_limit items
  | _ => true
  end.

(** The ["bits"] value the decoder exposes for a path, if the image opens
    and its dictionary can be read, is within the conversion limit. *)
Definition bits_within_limit (w : Decoder) (image_path : string) : bool :=
  match Image_open w image_path with
  | Raise _ => true
  | Ok img =>
      match img_info img with
      | Raise _ => true
      | Ok info => within_str_limit (dict_get info "bits")
      end
  end.

(** The static line of lines 25-32 for a mode. *)
Definition standard_line (mode : string) : string :=
  if String.eqb mode "RGBA" then "Image Bit Depth: RGBA8888 (Standard)"
  else if String.eqb mode "RGB" then "Image Bit Depth: RGB888 (Standard)"
  else if String.eqb mode "L" then "Image Bit Depth: 8-bit Grayscale (L8)"
  else "Image Bit Depth: Format details are not explicitly available.".


(** A bit count that [str] writes with one character: 0 to 9. *)
Definition single_digit (n : Z) : bool := ((0 <=? n) && (n <=? 9))%Z.

(** The character that [str] writes for a one-digit count. *)
Definition digit_char (n : Z) : ascii := ascii_of_nat (48 + Z.to_nat n).

(** ** Sample decoders *)

(** A decoder that answers every path with the same image. *)
Definition const_image (mode : string) (info : gmap string pyval) : Decoder :=
  mk_decoder (fun _ => Ok (mk_image (Ok mode) (Ok info))).

(** A decoder for which no file can be opened. *)
Definition const_raise (e : pyexc) : Decoder :=
  mk_decoder (fun _ => Raise e).

Definition bits8 (n : nat) : pyval := PyTuple (replicate n (PyInt 8)).


(** An integer of 4301 digits, one more than [str()] accepts. *)
Definition over_limit : Z := (10 ^ 4300)%Z.

(** ** Conversions *)

Section PyvalInd.

Variable P : pyval -> Prop.
Hypothesis HNone : P PyNone.
Hypothesis HBool : forall b, P (PyBool b).
Hypothesis HInt : forall n, P (PyInt n).
Hypothesis HTuple : forall items, Forall P items -> P (PyTuple items).
Hypothesis HObj : forall t s r, P (PyObj t s r).

(** Induction on values, with the hypothesis available for every item of a
    tuple. *)
Fixpoint pyval_nested_ind (v : pyval) : P v :=
  match v with
  | PyNone => HNone
  | PyBool b => HBool b
  | PyInt n => HInt n
  | PyTuple items =>
      HTuple items
        ((fix all (l : list pyval) : Forall P l :=
            match l with
            | [] => List.Forall_nil P
            | x :: rest =>
                List.Forall_cons P x rest (pyval_nested_ind x) (all rest)
            end) items)
  | PyObj t s r => HObj t s r
  end.

End PyvalInd.

Section MapMFacts.

Context {A B : Type} (f : A -> result B).

Lemma mapM_raise (Q : pyexc -> Prop) (l : list A) (e : pyexc) :
  Forall (fun x => forall e', f x = Raise e' -> Q e') l ->
  mapM f l = Raise e -> Q e.
Proof.
  induction 1 as [|x rest Hx _ IH]; cbn [mapM]; [discriminate|].
  destruct (f x) as [y|e'] eqn:Hfx.
  - destruct (mapM f rest) as [ys|e'']; [discriminate|].
    intros [= ->]. apply IH. reflexivity.
  - intros [= ->]. apply Hx. reflexivity.
Qed.

Lemma mapM_ok (l : list A) :
  Forall (fun x => exists y, f x = Ok y) l ->
  exists ys, mapM f l = Ok ys /\ length ys = length l.
Proof.
  induction 1 as [|x rest [y Hy] _ [ys [IH Hlen]]]; cbn [mapM].
  - exists []. split; reflexivity.
  - rewrite Hy, IH. exists (y :: ys). split; [reflexivity|].
    cbn [length]. rewrite Hlen. reflexivity.
Qed.

End MapMFacts.

Lemma str_int_raise (n : Z) (e : pyexc) :
  str_int n = Raise e -> e = str_limit_error.
Proof.
  unfold str_int. destruct (Nat.ltb max_str_digits (int_digits n));
    [intros [= <-]; reflexivity | discriminate].
Qed.

(** The only exception a conversion raises is the [ValueError] of the digit
    limit. *)
Lemma py_repr_raise (v : pyval) (e : pyexc) :
  py_repr v = Raise e -> e = str_limit_error.
Proof.
  revert e. induction v as [| b | n | items IH | t s r] using pyval_nested_ind;
    intros e; cbn [py_repr]; try discriminate.
  - apply str_int_raise.
  - destruct (mapM py_repr items) as [texts|e'] eqn:Hm.
    + destruct texts as [|x [|y rest]]; discriminate.
    + intros [= <-].
      apply (mapM_raise py_repr (fun e => e = str_limit_error) items e');
        assumption.
Qed.

Lemma py_str_raise (v : pyval) (e : pyexc) :
  py_str v = Raise e -> e = str_limit_error.
Proof.
  destruct v; cbn [py_str]; try apply py_repr_raise. discriminate.
Qed.

Lemma join_str_raise (sep : string) (items : list pyval) (e : pyexc) :
  join_str sep items = Raise e -> e = str_limit_error.
Proof.
  unfold join_str.
  destruct (mapM py_str items) as [texts|e'] eqn:Hm; [discriminate|].
  intros [= <-].
  apply (mapM_raise py_str (fun e => e = str_limit_error) items e');
    [|assumption].
  apply Forall_forall. intros x _ e''. apply py_str_raise.
Qed.

(** A value within the digit limit has a [repr]. *)
Lemma py_repr_within_limit (v : pyval) :
  within_str_limit v = true -> exists s, py_repr v = Ok s.
Proof.
  induction v as [| b | n | items IH | t s r] using pyval_nested_ind;
    cbn [within_str_limit py_repr]; intros Hw; try (eexists; reflexivity).
  - unfold str_int. apply negb_true_iff in Hw. rewrite Hw.
    eexists; reflexivity.
  - destruct (mapM_ok py_repr items) as (texts & -> & _).
    + pose proof (proj1 (forallb_forall within_str_limit items) Hw) as Hall.
      rewrite Forall_forall in IH.
      apply Forall_forall. intros x Hx.
      apply IH; [assumption|]. apply Hall. apply list_elem_of_In. assumption.
    + destruct texts as [|x [|y rest]]; eexists; reflexivity.
Qed.

Lemma py_str_within_limit (v : pyval) :
  within_str_limit v = true -> exists s, py_str v = Ok s.
Proof.
  destruct v; cbn [py_str]; try apply py_repr_within_limit.
  intros _. eexists; reflexivity.
Qed.

Lemma join_str_within_limit (sep : string) (items : list pyval) :
  forallb within_str_limit items = true ->
  exists s, join_str sep items = Ok s.
Proof.
  intros Hw. unfold join_str.
  destruct (mapM_ok py_str items) as (texts & -> & _);
    [|eexists; reflexivity].
  pose proof (proj1 (forallb_forall within_str_limit items) Hw) as Hall.
  apply Forall_forall. intros x Hx.
  apply py_str_within_limit. apply Hall. apply list_elem_of_In. assumption.
Qed.

(** ** Basic facts about the script *)

Section DepthLine.

Variables (mode : string) (out : stdout).

Lemma report_depth_falsy v :
  truthy v = false ->
  report_depth mode v out = (out ++ [standard_line mode], Ok tt).
Proof.
  intros Ht. unfold report_depth, standard_line, print. rewrite Ht.
  destruct (String.eqb mode "RGBA"); [reflexivity|].
  destruct (String.eqb mode "RGB"); [reflexivity|].
  destruct (String.eqb mode "L"); reflexivity.
Qed.

Lemma report_depth_matched items s :
  items <> [] ->
  length items = len mode ->
  join_str "" items = Ok s ->
  report_depth mode (PyTuple items) out =
    (out ++ ["Image Bit Depth: RGBA" +:+ s], Ok tt).
Proof.
  intros Hne Hlen Hj. unfold report_depth, truthy.
  destruct items as [|x xs]; [congruence|].
  cbn [length Nat.eqb negb]. rewrite <- Hlen. cbn [length].
  rewrite Nat.eqb_refl. unfold bind, eval, print. rewrite Hj. reflexivity.
Qed.


(** The bit-depth step either prints one line or raises the conversion
    error with nothing printed. *)
Lemma report_depth_cases v :
  (exists depth,
     report_depth mode v out =
       (out ++ ["Image Bit Depth: " +:+ depth], Ok tt)) \/
  report_depth mode v out = (out, Raise str_limit_error).
Proof.
  destruct (truthy v) eqn:Ht.
  - assert (Hfb : forall r,
              r = py_str v ->
              (exists depth,
                 (text <- eval r ;;
                  print ("Image Bit Depth: " +:+ text
                         +:+ " bits per channel (or an unknown format)")) out =
                 (out ++ ["Image Bit Depth: " +:+ depth], Ok tt)) \/
              (text <- eval r ;;
               print ("Image Bit Depth: " +:+ text
                      +:+ " bits per channel (or an unknown format)")) out =
              (out, Raise str_limit_error)).
    { intros r Hr. unfold bind, eval, print. destruct r as [s|e].
      - left. eexists. reflexivity.
      - right. symmetry in Hr. apply py_str_raise in Hr. subst e.
        reflexivity. }
    unfold report_depth. rewrite Ht.
    destruct v as [| b | n | items | t r1 r2]; try (apply Hfb; reflexivity).
    destruct (Nat.eqb (length items) (len mode));
      [|apply Hfb; reflexivity].
    unfold bind, eval, print.
    destruct (join_str "" items) as [s|e] eqn:Hj.
    + left. exists ("RGBA" +:+ s). reflexivity.
    + right. apply join_str_raise in Hj. subst e. reflexivity.
  - left. rewrite (report_depth_falsy v Ht). unfold standard_line.
    destruct (String.eqb mode "RGBA"); [eexists; reflexivity|].
    destruct (String.eqb mode "RGB"); [eexists; reflexivity|].
    destruct (String.eqb mode "L"); eexists; reflexivity.
Qed.

Lemma report_depth_within_limit v :
  within_str_limit v = true ->
  exists depth,
    report_depth mode v out = (out ++ ["Image Bit Depth: " +:+ depth], Ok tt).
Proof.
  intros Hw. destruct (report_depth_cases v) as [H|H]; [exact H|].
  exfalso. revert H. unfold report_depth.
  destruct (truthy v).
  - assert (Hfb : forall k : string -> Prog unit,
              (forall s, exists o, k s out = (o, Ok tt)) ->
              (text <- eval (py_str v) ;; k text) out <>
              (out, Raise str_limit_error)).
    { intros k Hk. unfold bind, eval.
      destruct (py_str_within_limit v Hw) as [s ->].
      destruct (Hk s) as [o ->]. discriminate. }
    destruct v as [| b | n | items | t r1 r2];
      try (apply Hfb; intros s; eexists; reflexivity).
    destruct (Nat.eqb (length items) (len mode));
      [|apply Hfb; intros s; eexists; reflexivity].
    unfold bind, eval, print.
    destruct (join_str_within_limit "" items Hw) as [s ->]. discriminate.
  - unfold print.
    destruct (String.eqb mode "RGBA"); [discriminate|].
    destruct (String.eqb mode "RGB"); [discriminate|].
    destruct (String.eqb mode "L"); discriminate.
Qed.

End DepthLine.

Section Script.

Variables (w : Decoder) (image_path : string).

Lemma with_block_ok img mode info :
  Image_open w image_path = Ok img ->
  img_mode img = Ok mode ->
  img_info img = Ok info ->
  with_block w image_path [] =
    report_depth mode (dict_get info "bits")
      ["File: " +:+ image_path; "Pillow Mode: " +:+ mode].
Proof.
  intros Ho Hm Hi. unfold with_block, bind, eval, print.
  rewrite Ho, Hm, Hi. reflexivity.
Qed.

Lemma with_block_raise e :
  failure w image_path = Some e ->
  with_block w image_path [] = ([], Raise e).
Proof.
  unfold failure, with_block, bind, eval.
  destruct (Image_open w image_path) as [img|e0];
    [|intros [= ->]; reflexivity].
  destruct (img_mode img) as [mode|e0]; [|intros [= ->]; reflexivity].
  destruct (img_info img) as [info|e0];
    [discriminate|intros [= ->]; reflexivity].
Qed.

(** When the bit-depth step prints its line, the report stands as it is. *)
Lemma inspect_ok img mode info lines :
  Image_open w image_path = Ok img ->
  img_mode img = Ok mode ->
  img_info img = Ok info ->
  report_depth mode (dict_get info "bits")
    ["File: " +:+ image_path; "Pillow Mode: " +:+ mode] = (lines, Ok tt) ->
  inspect image_path w [] = (lines, Ok tt).
Proof.
  intros Ho Hm Hi Hr. unfold inspect, try_except.
  rewrite (with_block_ok img mode info Ho Hm Hi), Hr. reflexivity.
Qed.

(** When a conversion raises, the second clause adds its line to the two
    lines already printed. *)
Lemma inspect_conversion_raise img mode info :
  Image_open w image_path = Ok img ->
  img_mode img = Ok mode ->
  img_info img = Ok info ->
  report_depth mode (dict_get info "bits")
    ["File: " +:+ image_path; "Pillow Mode: " +:+ mode] =
    (["File: " +:+ image_path; "Pillow Mode: " +:+ mode],
     Raise str_limit_error) ->
  inspect image_path w [] =
    (["File: " +:+ image_path; "Pillow Mode: " +:+ mode;
      "An error occurred: " +:+ exc_str str_limit_error], Ok tt).
Proof.
  intros Ho Hm Hi Hr. unfold inspect, try_except.
  rewrite (with_block_ok img mode info Ho Hm Hi), Hr. reflexivity.
Qed.

Lemma inspect_raise e :
  failure w image_path = Some e ->
  inspect image_path w [] =
    match exc_cls e with
    | FileNotFoundError =>
        (["Error: The file '" +:+ image_path +:+ "' was not found."], Ok tt)
    | Exception => (["An error occurred: " +:+ exc_str e], Ok tt)
    | BaseException => ([], Raise e)
    end.
Proof.
  intros Hf. unfold inspect, try_except.
  rewrite (with_block_raise e Hf).
  unfold select_clause, isinstance_exc, print.
  destruct (exc_cls e); reflexivity.
Qed.

Lemma failure_none :
  failure w image_path = None ->
  exists img mode info,
    Image_open w image_path = Ok img /\
    img_mode img = Ok mode /\ img_info img = Ok info.
Proof.
  unfold failure.
  destruct (Image_open w image_path) as [img|e0]; [|discriminate].
  destruct (img_mode img) as [mode|e0] eqn:Hm; [|discriminate].
  destruct (img_info img) as [info|e0] eqn:Hi; [|discriminate].
  intros _. exists img, mode, info. auto.
Qed.

End Script.

Section Branches.

Variables (w : Decoder) (image_path : string).
Variables (img : Image) (mode : string) (info : gmap string pyval).
Hypothesis Hopen : Image_open w image_path = Ok img.
Hypothesis Hmode : img_mode img = Ok mode.
Hypothesis Hinfo : img_info img = Ok info.

(** A truthy tuple with as many items as [mode] has characters is joined
    item by item behind the literal label of line 20. *)
Lemma matched_tuple_report items s :
  info !! "bits" = Some (PyTuple items) ->
  items <> [] ->
  length items = len mode ->
  join_str "" items = Ok s ->
  inspect image_path w [] =
    (["File: " +:+ image_path; "Pillow Mode: " +:+ mode;
      "Image Bit Depth: RGBA" +:+ s], Ok tt).
Proof.
  intros Hb Hne Hlen Hj.
  apply (inspect_ok w image_path img mode info _ Hopen Hmode Hinfo).
  unfold dict_get. rewrite Hb. cbn [default from_option id].
  exact (report_depth_matched mode _ items s Hne Hlen Hj).
Qed.


Lemma falsy_report :
  truthy (dict_get info "bits") = false ->
  inspect image_path w [] =
    (["File: " +:+ image_path; "Pillow Mode: " +:+ mode;
      standard_line mode], Ok tt).
Proof.
  intros Ht.
  apply (inspect_ok w image_path img mode info _ Hopen Hmode Hinfo).
  exact (report_depth_falsy mode _ _ Ht).
Qed.

End Branches.

(** ** The bit-depth line *)

(** C1 (the code departs from it): an RGB image whose ["bits"] entry is the
    matching tuple [(8, 8, 8)] is reported under the literal label [RGBA] of
    line 20, as ["Image Bit Depth: RGBA888"], and not under its own mode
    name. *)
Theorem rgb_tuple_is_labelled_RGBA :
  output (main (const_image "RGB" {["bits" := bits8 3]})) =
    ["File: title_background.png"; "Pillow Mode: RGB";
     "Image Bit Depth: RGBA888"] /\
  third_line (main (const_image "RGB" {["bits" := bits8 3]})) <>
    Some "Image Bit Depth: RGB888".
Proof.
  split.
  - vm_compute. reflexivity.
  - vm_compute. discriminate.
Qed.




(** C3: for an RGBA image whose ["bits"] entry is a 4-tuple, the third line
    is ["Image Bit Depth: RGBA"] followed by the four items' texts. *)
Theorem rgba_tuple_line
    (image_path : string) (w : Decoder) (img : Image)
    (info : gmap string pyval) (a b c d : pyval) (sa sb sc sd : string) :
  Image_open w image_path = Ok img ->
  img_mode img = Ok "RGBA" ->
  img_info img = Ok info ->
  info !! "bits" = Some (PyTuple [a; b; c; d]) ->
  py_str a = Ok sa -> py_str b = Ok sb ->
  py_str c = Ok sc -> py_str d = Ok sd ->
  third_line (inspect image_path w) =
    Some ("Image Bit Depth: RGBA" +:+ sa +:+ sb +:+ sc +:+ sd).
Proof.
  intros Ho Hm Hi Hb Ha Hb' Hc Hd. unfold third_line, output.
  rewrite (matched_tuple_report w image_path img "RGBA" info Ho Hm Hi
             [a; b; c; d] (sa +:+ sb +:+ sc +:+ sd) Hb);
    [reflexivity | discriminate | reflexivity |].
  unfold join_str. cbn [mapM]. rewrite Ha, Hb', Hc, Hd. reflexivity.
Qed.

Lemma rgba_tuple_line_witness :
  third_line (main (const_image "RGBA" {["bits" := bits8 4]})) =
    Some "Image Bit Depth: RGBA8888".
Proof.
  apply (rgba_tuple_line "title_background.png"
           (const_image "RGBA" {["bits" := bits8 4]})
           (mk_image (Ok "RGBA") (Ok {["bits" := bits8 4]}))
           {["bits" := bits8 4]} (PyInt 8) (PyInt 8) (PyInt 8) (PyInt 8)
           "8" "8" "8" "8");
    reflexivity.
Defined.

(** C4: with no ["bits"] entry the third line is looked up from the mode:
    RGBA, RGB and L have their standard lines and every other mode has the
    line saying that details are not available. *)
Theorem absent_bits_static_lookup
    (image_path : string) (w : Decoder) (img : Image)
    (mode : string) (info : gmap string pyval) :
  Image_open w image_path = Ok img ->
  img_mode img = Ok mode ->
  img_info img = Ok info ->
  info !! "bits" = None ->
  (mode = "RGBA" ->
   third_line (inspect image_path w) =
     Some "Image Bit Depth: RGBA8888 (Standard)") /\
  (mode = "RGB" ->
   third_line (inspect image_path w) =
     Some "Image Bit Depth: RGB888 (Standard)") /\
  (mode = "L" ->
   third_line (inspect image_path w) =
     Some "Image Bit Depth: 8-bit Grayscale (L8)") /\
  (mode <> "RGBA" -> mode <> "RGB" -> mode <> "L" ->
   third_line (inspect image_path w) =
     Some "Image Bit Depth: Format details are not explicitly available.").
Proof.
  intros Ho Hm Hi Hb. unfold third_line, output.
  rewrite (falsy_report w image_path img mode info Ho Hm Hi);
    [| unfold dict_get; rewrite Hb; reflexivity].
  unfold standard_line. repeat split.
  - intros ->. reflexivity.
  - intros ->. reflexivity.
  - intros ->. reflexivity.
  - intros H1 H2 H3.
    destruct (String.eqb_spec mode "RGBA"); [contradiction|].
    destruct (String.eqb_spec mode "RGB"); [contradiction|].
    destruct (String.eqb_spec mode "L"); [contradiction|].
    reflexivity.
Qed.

Lemma absent_bits_static_lookup_witness :
  third_line (main (const_image "RGBA" ∅)) =
    Some "Image Bit Depth: RGBA8888 (Standard)".
Proof.
  apply (absent_bits_static_lookup "title_background.png"
           (const_image "RGBA" ∅) (mk_image (Ok "RGBA") (Ok ∅)) "RGBA" ∅);
    reflexivity.
Defined.

(** ** Failures *)

(** C5, as stated, fails: a file that exists but cannot be read makes
    [Image.open] raise [PermissionError], an [Exception] that is not a
    [FileNotFoundError]; the second clause prints the generic line, not the
    not-found line. *)
Lemma unreadable_file_counterexample :
  output (main (const_raise (mk_exc Exception
    "[Errno 13] Permission denied: 'title_background.png'"))) =
    ["An error occurred: [Errno 13] Permission denied: 'title_background.png'"]
  /\
  output (main (const_raise (mk_exc Exception
    "[Errno 13] Permission denied: 'title_background.png'"))) <>
    ["Error: The file 'title_background.png' was not found."].
Proof. vm_compute. split; [reflexivity | discriminate]. Qed.

(** C5, amended: when the path names no file, so that [Image.open] raises
    [FileNotFoundError], the whole output is the single not-found line that
    quotes the path, and the run ends normally. *)
Theorem not_found_one_line
    (image_path : string) (w : Decoder) (e : pyexc) :
  Image_open w image_path = Raise e ->
  exc_cls e = FileNotFoundError ->
  output (inspect image_path w) =
    ["Error: The file '" +:+ image_path +:+ "' was not found."] /\
  exits_normally (inspect image_path w) = true.
Proof.
  intros Ho Hc.
  assert (Hf : failure w image_path = Some e)
    by (unfold failure; rewrite Ho; reflexivity).
  unfold output, exits_normally.
  rewrite (inspect_raise w image_path e Hf), Hc.
  split; reflexivity.
Qed.

Lemma not_found_one_line_witness :
  output (main (const_raise (mk_exc FileNotFoundError
    "[Errno 2] No such file or directory: 'title_background.png'"))) =
    ["Error: The file 'title_background.png' was not found."] /\
  exits_normally (main (const_raise (mk_exc FileNotFoundError
    "[Errno 2] No such file or directory: 'title_background.png'"))) = true.
Proof.
  apply (not_found_one_line "title_background.png" _
           (mk_exc FileNotFoundError
              "[Errno 2] No such file or directory: 'title_background.png'"));
    reflexivity.
Defined.

(** C6: when opening or querying the image raises an [Exception] other than
    [FileNotFoundError], the whole output is one line, the generic prefix
    followed by the exception's own text, and the run ends normally. *)
Theorem other_failure_one_line
    (image_path : string) (w : Decoder) (e : pyexc) :
  failure w image_path = Some e ->
  exc_cls e = Exception ->
  output (inspect image_path w) = ["An error occurred: " +:+ exc_str e] /\
  exits_normally (inspect image_path w) = true.
Proof.
  intros Hf Hc. unfold output, exits_normally.
  rewrite (inspect_raise w image_path e Hf), Hc.
  split; reflexivity.
Qed.

Lemma other_failure_one_line_witness :
  output (main (const_raise (mk_exc Exception
    "cannot identify image file 'title_background.png'"))) =
    ["An error occurred: cannot identify image file 'title_background.png'"] /\
  exits_normally (main (const_raise (mk_exc Exception
    "cannot identify image file 'title_background.png'"))) = true.
Proof.
  apply (other_failure_one_line "title_background.png" _
           (mk_exc Exception
              "cannot identify image file 'title_background.png'"));
    reflexivity.
Defined.

(** C7, as stated, fails: the conversion of line 22 runs inside the [try]
    after lines 12 and 13 have printed.  For an [int] of 4301 digits under
    ["bits"] it raises, and the output is two report lines followed by an
    error line. *)
Lemma over_limit_bits_counterexample :
  output (main (const_image "RGBA" {["bits" := PyInt over_limit]})) =
    ["File: title_background.png"; "Pillow Mode: RGBA";
     "An error occurred: Exceeds the limit (4300 digits) for integer string conversion; use sys.set_int_max_str_digits() to increase the limit"]
  /\
  exits_normally
    (main (const_image "RGBA" {["bits" := PyInt over_limit]})) = true.
Proof. vm_compute. split; reflexivity. Qed.

(** C7, amended: for a file (the decoder raises nothing outside [Exception])
    whose ["bits"] value holds no integer beyond the conversion limit, the
    output is either the full report of three lines, or one error line: the
    not-found line or the generic line. *)
Theorem report_all_or_nothing (image_path : string) (w : Decoder) :
  raises_only_Exception w image_path = true ->
  bits_within_limit w image_path = true ->
  (exists mode depth,
     output (inspect image_path w) =
       ["File: " +:+ image_path; "Pillow Mode: " +:+ mode;
        "Image Bit Depth: " +:+ depth]) \/
  output (inspect image_path w) =
    ["Error: The file '" +:+ image_path +:+ "' was not found."] \/
  (exists msg,
     output (inspect image_path w) = ["An error occurred: " +:+ msg]).
Proof.
  unfold raises_only_Exception, bits_within_limit, output.
  destruct (failure w image_path) as [e|] eqn:Hf.
  - rewrite (inspect_raise w image_path e Hf).
    unfold isinstance_exc. destruct (exc_cls e); intros Hc _.
    + right; left. reflexivity.
    + right; right. exists (exc_str e). reflexivity.
    + discriminate.
  - intros _.
    destruct (failure_none w image_path Hf) as (img & mode & info & Ho & Hm & Hi).
    rewrite Ho, Hi. intros Hw. left.
    destruct (report_depth_within_limit mode
                ["File: " +:+ image_path; "Pillow Mode: " +:+ mode]
                (dict_get info "bits") Hw) as [depth Hr].
    rewrite (inspect_ok w image_path img mode info _ Ho Hm Hi Hr).
    exists mode, depth. reflexivity.
Qed.

Lemma report_all_or_nothing_witness :
  (exists mode depth,
     output (main (const_image "L" {["bits" := PyInt 8]})) =
       ["File: title_background.png"; "Pillow Mode: " +:+ mode;
        "Image Bit Depth: " +:+ depth]) \/
  output (main (const_image "L" {["bits" := PyInt 8]})) =
    ["Error: The file 'title_background.png' was not found."] \/
  (exists msg,
     output (main (const_image "L" {["bits" := PyInt 8]})) =
       ["An error occurred: " +:+ msg]).
Proof.
  apply (report_all_or_nothing "title_background.png"
           (const_image "L" {["bits" := PyInt 8]}));
    reflexivity.
Defined.

(** C8: for a file (the decoder raises nothing outside [Exception]) no
    exception leaves the script: the run always ends normally, whether the
    image opens, is missing, or fails in any other way. *)
Theorem never_uncaught (image_path : string) (w : Decoder) :
  raises_only_Exception w image_path = true ->
  exits_normally (inspect image_path w) = true.
Proof.
  unfold raises_only_Exception, exits_normally.
  destruct (failure w image_path) as [e|] eqn:Hf.
  - rewrite (inspect_raise w image_path e Hf).
    unfold isinstance_exc. destruct (exc_cls e); intros Hc;
      [reflexivity | reflexivity | discriminate].
  - intros _.
    destruct (failure_none w image_path Hf) as (img & mode & info & Ho & Hm & Hi).
    destruct (report_depth_cases mode
                ["File: " +:+ image_path; "Pillow Mode: " +:+ mode]
                (dict_get info "bits")) as [[depth Hr]|Hr].
    + rewrite (inspect_ok w image_path img mode info _ Ho Hm Hi Hr).
      reflexivity.
    + rewrite (inspect_conversion_raise w image_path img mode info
                 Ho Hm Hi Hr).
      reflexivity.
Qed.

Lemma never_uncaught_witness :
  exits_normally (main (const_raise (mk_exc Exception
    "[Errno 13] Permission denied: 'title_background.png'"))) = true.
Proof.
  apply (never_uncaught "title_background.png").
  reflexivity.
Defined.

(** The two clauses catch [Exception] and nothing wider: an interrupt that
    arrives during [Image.open] is not the file's doing, and it leaves the
    script with nothing printed. *)
Remark interrupt_is_not_caught :
  main (const_raise (mk_exc BaseException "")) [] =
    ([], Raise (mk_exc BaseException "")).
Proof. reflexivity. Qed.

(** ** Repeated runs *)

(** C9: two runs for which the decoder answers the path alike (same failure,
    or same mode and same metadata) write the same bytes to standard output
    and end the same way. *)
Theorem inspect_twice_identical
    (image_path : string) (w1 w2 : Decoder) :
  Image_open w1 image_path = Image_open w2 image_path ->
  stdout_text (output (inspect image_path w1)) =
    stdout_text (output (inspect image_path w2)) /\
  exits_normally (inspect image_path w1) =
    exits_normally (inspect image_path w2).
Proof.
  intros H.
  assert (Hrun : inspect image_path w1 [] = inspect image_path w2 []).
  { unfold inspect, try_except, with_block, bind, eval. rewrite H.
    reflexivity. }
  unfold output, exits_normally. rewrite Hrun. split; reflexivity.
Qed.

Lemma inspect_twice_identical_witness :
  stdout_text (output (main (const_image "RGB" ∅))) =
    stdout_text (output (main (mk_decoder (fun p =>
      if String.eqb p "title_background.png"
      then Ok (mk_image (Ok "RGB") (Ok ∅))
      else Raise (mk_exc FileNotFoundError ""))))) /\
  exits_normally (main (const_image "RGB" ∅)) =
    exits_normally (main (mk_decoder (fun p =>
      if String.eqb p "title_background.png"
      then Ok (mk_image (Ok "RGB") (Ok ∅))
      else Raise (mk_exc FileNotFoundError "")))).
Proof.
  apply (inspect_twice_identical "title_background.png").
  reflexivity.
Defined.

(** ** Presence of the metadata *)

(** C10: a ["bits"] entry whose value is falsy (for instance [0] or [()]) is
    treated as no entry at all.  The present-metadata branches are skipped:
    the report ends with the standard line of the mode (RGBA, RGB, L, or the
    not-available line), and the run is the one of the same image with the
    key removed. *)
Theorem falsy_bits_as_absent
    (image_path : string) (w : Decoder) (img : Image)
    (mode : string) (info : gmap string pyval) (v : pyval) :
  Image_open w image_path = Ok img ->
  img_mode img = Ok mode ->
  img_info img = Ok info ->
  info !! "bits" = Some v ->
  truthy v = false ->
  inspect image_path w [] =
    (["File: " +:+ image_path; "Pillow Mode: " +:+ mode;
      if String.eqb mode "RGBA" then "Image Bit Depth: RGBA8888 (Standard)"
      else if String.eqb mode "RGB" then "Image Bit Depth: RGB888 (Standard)"
      else if String.eqb mode "L" then "Image Bit Depth: 8-bit Grayscale (L8)"
      else "Image Bit Depth: Format details are not explicitly available."],
     Ok tt) /\
  inspect image_path w [] =
    inspect image_path (const_image mode (delete "bits" info)) [].
Proof.
  intros Ho Hm Hi Hb Ht.
  assert (Hrun : inspect image_path w [] =
            (["File: " +:+ image_path; "Pillow Mode: " +:+ mode;
              standard_line mode], Ok tt)).
  { apply (falsy_report w image_path img mode info Ho Hm Hi).
    unfold dict_get. rewrite Hb. exact Ht. }
  split; [exact Hrun|]. rewrite Hrun. symmetry.
  apply (falsy_report (const_image mode (delete "bits" info)) image_path
           (mk_image (Ok mode) (Ok (delete "bits" info))) mode
           (delete "bits" info) eq_refl eq_refl eq_refl).
  unfold dict_get. rewrite lookup_delete_eq. reflexivity.
Qed.

Lemma falsy_bits_as_absent_witness :
  inspect "title_background.png"
    (const_image "RGB" {["bits" := PyTuple []]}) [] =
    (["File: title_background.png"; "Pillow Mode: RGB";
      "Image Bit Depth: RGB888 (Standard)"], Ok tt) /\
  inspect "title_background.png"
    (const_image "RGB" {["bits" := PyTuple []]}) [] =
    inspect "title_background.png"
      (const_image "RGB" (delete "bits" {["bits" := PyTuple []]})) [].
Proof.
  apply (falsy_bits_as_absent "title_background.png"
           (const_image "RGB" {["bits" := PyTuple []]})
           (mk_image (Ok "RGB") (Ok {["bits" := PyTuple []]}))
           "RGB" {["bits" := PyTuple []]} (PyTuple []));
    reflexivity.
Defined.

(** The integer [0] under ["bits"] gives the standard line of the mode. *)
Example zero_bits_takes_lookup :
  output (main (const_image "RGBA" {["bits" := PyInt 0]})) =
    ["File: title_background.png"; "Pillow Mode: RGBA";
     "Image Bit Depth: RGBA8888 (Standard)"].
Proof. vm_compute. reflexivity. Qed.

(** ** Further properties of the script *)

Section Handlers.

Variables (w : Decoder) (image_path : string).

(** X4: an exception outside [Exception] raised by [Image.open], [img.mode]
    or [img.info] passes both [except] clauses: it leaves the script, and
    nothing has been printed. *)
Theorem base_exception_propagates (e : pyexc) :
  failure w image_path = Some e ->
  exc_cls e = BaseException ->
  inspect image_path w [] = ([], Raise e).
Proof.
  intros Hf Hc. rewrite (inspect_raise w image_path e Hf), Hc. reflexivity.
Qed.

(** X5: a [FileNotFoundError] from any of the three reads is handled by the
    first clause alone: the output is the not-found line, which quotes the
    path and not the exception's text, and the generic line is not printed
    although the exception is an [Exception] too. *)
Theorem not_found_at_any_read (e : pyexc) :
  failure w image_path = Some e ->
  exc_cls e = FileNotFoundError ->
  inspect image_path w [] =
    (["Error: The file '" +:+ image_path +:+ "' was not found."], Ok tt).
Proof.
  intros Hf Hc. rewrite (inspect_raise w image_path e Hf), Hc. reflexivity.
Qed.

End Handlers.

Lemma base_exception_propagates_witness :
  main (mk_decoder (fun _ =>
          Ok (mk_image (Raise (mk_exc BaseException "KeyboardInterrupt"))
                       (Ok ∅)))) [] =
    ([], Raise (mk_exc BaseException "KeyboardInterrupt")).
Proof.
  apply (base_exception_propagates _ "title_background.png"); reflexivity.
Defined.

Lemma not_found_at_any_read_witness :
  main (mk_decoder (fun _ =>
          Ok (mk_image (Ok "RGB")
                       (Raise (mk_exc FileNotFoundError "gone"))))) [] =
    (["Error: The file 'title_background.png' was not found."], Ok tt).
Proof.
  apply (not_found_at_any_read _ "title_background.png"
           (mk_exc FileNotFoundError "gone")); reflexivity.
Defined.

Section Opened.

Variables (w : Decoder) (image_path : string).
Variables (img : Image) (mode : string) (info : gmap string pyval).
Hypothesis Hopen : Image_open w image_path = Ok img.
Hypothesis Hmode : img_mode img = Ok mode.
Hypothesis Hinfo : img_info img = Ok info.

(** X1: in every non-empty mode, a tuple under ["bits"] with as many items as
    the mode name has characters, all of which have a text form, is reported
    as the literal ["RGBA"] followed by the items' texts joined without
    separator.  The mode enters the line through its length only. *)
Theorem matched_tuple_any_mode (items : list pyval) (texts : list string) :
  mode <> "" ->
  info !! "bits" = Some (PyTuple items) ->
  length items = len mode ->
  mapM py_str items = Ok texts ->
  output (inspect image_path w) =
    ["File: " +:+ image_path; "Pillow Mode: " +:+ mode;
     "Image Bit Depth: RGBA" +:+ String.concat "" texts].
Proof.
  intros Hne Hb Hlen Ht. unfold output.
  rewrite (matched_tuple_report w image_path img mode info
             Hopen Hmode Hinfo items (String.concat "" texts) Hb);
    [reflexivity | | exact Hlen | unfold join_str; rewrite Ht; reflexivity].
  intros ->. apply Hne. destruct mode; [reflexivity | discriminate].
Qed.

(** X6: once the image opens and answers both queries, the run prints the
    path line and the mode line and then exactly one more line, whatever sits
    under ["bits"]: a line that starts with ["Image Bit Depth: "], or, when a
    conversion of the value raises, the generic error line with the
    conversion's message.  Either way the run ends normally. *)
Theorem opened_image_third_line :
  (exists depth,
     inspect image_path w [] =
       (["File: " +:+ image_path; "Pillow Mode: " +:+ mode;
         "Image Bit Depth: " +:+ depth], Ok tt)) \/
  inspect image_path w [] =
    (["File: " +:+ image_path; "Pillow Mode: " +:+ mode;
      "An error occurred: " +:+ exc_str str_limit_error], Ok tt).
Proof.
  destruct (report_depth_cases mode
              ["File: " +:+ image_path; "Pillow Mode: " +:+ mode]
              (dict_get info "bits")) as [[depth Hr]|Hr].
  - left. exists depth.
    exact (inspect_ok w image_path img mode info _ Hopen Hmode Hinfo Hr).
  - right.
    exact (inspect_conversion_raise w image_path img mode info
             Hopen Hmode Hinfo Hr).
Qed.

(** X2: of the metadata dictionary only the ["bits"] entry is read.  Another
    image with the same mode whose dictionary agrees on that key gives the
    same run, whatever else either dictionary holds. *)
Theorem only_bits_entry_is_read
    (w' : Decoder) (img' : Image) (info' : gmap string pyval) :
  Image_open w' image_path = Ok img' ->
  img_mode img' = Ok mode ->
  img_info img' = Ok info' ->
  info' !! "bits" = info !! "bits" ->
  inspect image_path w' [] = inspect image_path w [].
Proof.
  intros Ho' Hm' Hi' Hb.
  unfold inspect, try_except.
  rewrite (with_block_ok w image_path img mode info Hopen Hmode Hinfo).
  rewrite (with_block_ok w' image_path img' mode info' Ho' Hm' Hi').
  unfold dict_get. rewrite Hb. reflexivity.
Qed.

End Opened.

Lemma matched_tuple_any_mode_witness :
  output (main (const_image "CMYK" {["bits" := bits8 4]})) =
    ["File: title_background.png"; "Pillow Mode: CMYK";
     "Image Bit Depth: RGBA8888"].
Proof.
  apply (matched_tuple_any_mode (const_image "CMYK" {["bits" := bits8 4]})
           "title_background.png"
           (mk_image (Ok "CMYK") (Ok {["bits" := bits8 4]}))
           "CMYK" {["bits" := bits8 4]} eq_refl eq_refl eq_refl
           [PyInt 8; PyInt 8; PyInt 8; PyInt 8] ["8"; "8"; "8"; "8"]);
    [discriminate | reflexivity | reflexivity | reflexivity].
Defined.

Lemma opened_image_third_line_witness :
  (exists depth,
     main (const_image "P" {["bits" := PyInt over_limit]}) [] =
       (["File: title_background.png"; "Pillow Mode: P";
         "Image Bit Depth: " +:+ depth], Ok tt)) \/
  main (const_image "P" {["bits" := PyInt over_limit]}) [] =
    (["File: title_background.png"; "Pillow Mode: P";
      "An error occurred: " +:+ exc_str str_limit_error], Ok tt).
Proof.
  apply (opened_image_third_line
           (const_image "P" {["bits" := PyInt over_limit]})
           "title_background.png"
           (mk_image (Ok "P") (Ok {["bits" := PyInt over_limit]}))
           "P" {["bits" := PyInt over_limit]} eq_refl eq_refl eq_refl).
Defined.

Lemma only_bits_entry_is_read_witness :
  main (const_image "RGB"
          (<["dpi" := PyTuple [PyInt 72; PyInt 72]]> {["bits" := bits8 3]})) [] =
    main (const_image "RGB" {["bits" := bits8 3]}) [].
Proof.
  apply (only_bits_entry_is_read
           (const_image "RGB" {["bits" := bits8 3]}) "title_background.png"
           (mk_image (Ok "RGB") (Ok {["bits" := bits8 3]}))
           "RGB" {["bits" := bits8 3]} eq_refl eq_refl eq_refl
           (const_image "RGB"
              (<["dpi" := PyTuple [PyInt 72; PyInt 72]]> {["bits" := bits8 3]}))
           (mk_image (Ok "RGB")
              (Ok (<["dpi" := PyTuple [PyInt 72; PyInt 72]]>
                     {["bits" := bits8 3]})))
           (<["dpi" := PyTuple [PyInt 72; PyInt 72]]> {["bits" := bits8 3]}));
    reflexivity.
Defined.

(** *** One character per channel *)

Lemma append_empty_r (s : string) : s +:+ "" = s.
Proof.
  induction s as [|c s IH]; [reflexivity|].
  change (String c (s +:+ "") = String c s). rewrite IH. reflexivity.
Qed.

Lemma join_empty_cons (x : string) (xs : list string) :
  String.concat "" (x :: xs) = x +:+ String.concat "" xs.
Proof.
  destruct xs as [|y ys]; cbn [String.concat].
  - symmetry. apply append_empty_r.
  - reflexivity.
Qed.

Lemma str_int_single_digit (n : Z) :
  single_digit n = true -> str_int n = Ok (String (digit_char n) "").
Proof.
  unfold single_digit. intros H.
  apply andb_prop in H as [Hlo Hhi].
  apply Z.leb_le in Hlo. apply Z.leb_le in Hhi.
  destruct n as [|p|p]; [reflexivity | | lia].
  repeat (match goal with
          | q : positive |- _ => destruct q
          end; try reflexivity; try lia).
Qed.

Lemma join_single_digits (ns : list Z) :
  forallb single_digit ns = true ->
  join_str "" (map PyInt ns) =
    Ok (string_of_list_ascii (map digit_char ns)).
Proof.
  unfold join_str.
  induction ns as [|n ns IH]; [reflexivity|].
  cbn [forallb map mapM]. intros H. apply andb_prop in H as [Hn Hns].
  cbn [py_str py_repr]. rewrite (str_int_single_digit n Hn).
  specialize (IH Hns).
  destruct (mapM py_str (map PyInt ns)) as [texts|e]; [|discriminate].
  injection IH as IH. rewrite join_empty_cons, IH. reflexivity.
Qed.

Lemma length_string_of_list_ascii (cs : list ascii) :
  String.length (string_of_list_ascii cs) = length cs.
Proof.
  induction cs as [|c cs IH]; [reflexivity|].
  change (S (String.length (string_of_list_ascii cs)) = S (length cs)).
  rewrite IH. reflexivity.
Qed.

(** X7: when the ["bits"] tuple holds one-digit integers, one per character
    of a non-empty mode name, the third line is ["Image Bit Depth: RGBA"]
    followed by exactly those digits in the tuple's order, one character per
    channel. *)
Theorem digit_counts_one_char_each
    (image_path : string) (w : Decoder) (img : Image)
    (mode : string) (info : gmap string pyval) (ns : list Z) :
  Image_open w image_path = Ok img ->
  img_mode img = Ok mode ->
  img_info img = Ok info ->
  mode <> "" ->
  info !! "bits" = Some (PyTuple (map PyInt ns)) ->
  length ns = len mode ->
  forallb single_digit ns = true ->
  third_line (inspect image_path w) =
    Some ("Image Bit Depth: RGBA"
            +:+ string_of_list_ascii (map digit_char ns)) /\
  String.length (string_of_list_ascii (map digit_char ns)) = len mode.
Proof.
  intros Ho Hm Hi Hne Hb Hlen Hd. split.
  - unfold third_line, output.
    rewrite (matched_tuple_report w image_path img mode info Ho Hm Hi
               (map PyInt ns) (string_of_list_ascii (map digit_char ns)) Hb).
    + reflexivity.
    + intros Hnil. apply Hne.
      assert (Hz : length (map PyInt ns) = 0%nat) by (rewrite Hnil; reflexivity).
      rewrite length_map, Hlen in Hz.
      unfold len in Hz. destruct mode; [reflexivity | discriminate].
    + rewrite length_map. exact Hlen.
    + exact (join_single_digits ns Hd).
  - rewrite length_string_of_list_ascii, length_map. exact Hlen.
Qed.

Lemma digit_counts_one_char_each_witness :
  third_line (main (const_image "RGB"
    {["bits" := PyTuple [PyInt 5; PyInt 6; PyInt 5]]})) =
    Some "Image Bit Depth: RGBA565" /\
  String.length "565" = 3%nat.
Proof.
  apply (digit_counts_one_char_each "title_background.png"
           (const_image "RGB" {["bits" := PyTuple [PyInt 5; PyInt 6; PyInt 5]]})
           (mk_image (Ok "RGB")
              (Ok {["bits" := PyTuple [PyInt 5; PyInt 6; PyInt 5]]}))
           "RGB" {["bits" := PyTuple [PyInt 5; PyInt 6; PyInt 5]]}
           [5; 6; 5]%Z);
    try reflexivity.
  discriminate.
Defined.
